(** * Affine geometries of dune-geometry and their checker

    A shallow embedding of [dune/geometry/affinegeometry.hh] (the class
    template [AffineGeometry< ct, mydim, cdim, Traits >]) and of
    [dune/geometry/genericgeometry/test/checkgeometry.hh] (the function
    template [checkGeometry]), with the properties their specification
    states about them.

    Conventions of the embedding.
    - The coordinate type [ct] is a template parameter of the source.  It is
      modelled by a real closed field: arithmetic is exact, [std::sqrt] is
      [Num.sqrt] and [std::abs] is the norm [`| _ |].  Rounding, infinities
      and NaN of a floating point instantiation are outside the model.
    - [FieldVector< ct, n >] is a row vector ['rV[ct]_n] and
      [FieldMatrix< ct, m, n >] a matrix ['M[ct]_(m, n)]: as in the source,
      the dimensions are part of the type.
    - The C++ type [int] is [int]; no arithmetic is done on it that could
      overflow.
    - A call that can leave its normal path yields an [Outcome]: it returns,
      it throws, or the language gives it no meaning (an out-of-bounds
      [operator[]]). *)

From HB Require Import structures.
From Stdlib Require Import String.
From mathcomp Require Import boot order algebra.
From mathcomp Require Import algC.

Set Implicit Arguments.
Unset Strict Implicit.
Unset Printing Implicit Defensive.

Import Order.TTheory GRing.Theory Num.Theory.
Local Open Scope ring_scope.

(** ** Outcomes of calls *)

(** The conditions a call can be left with.  [DuneException] is
    [DUNE_THROW(Exception, what)], the only [throw] of the two source files.
    [OutOfRange] and [InvalidArgument] are the conditions the specification
    names in its error taxonomy; no statement of the sources raises them. *)
Inductive Condition : Type :=
  | DuneException (what : string)
  | OutOfRange
  | InvalidArgument.

Inductive Outcome (A : Type) : Type :=
  | Returns (a : A)
  | Throws (e : Condition)
  | Undefined.

Arguments Returns {A} a.
Arguments Throws {A} e.
Arguments Undefined {A}.

Definition bind {A B : Type} (o : Outcome A) (k : A -> Outcome B) : Outcome B :=
  match o with
  | Returns a => k a
  | Throws e => Throws e
  | Undefined => Undefined
  end.

Notation "x <- o ;; k" := (bind o (fun x => k))
  (at level 61, o at next level, right associativity).

(** ** dune-common: FieldVector and FieldMatrix

    The operations of dune-common the two files call, each written as the
    entry its loop nest leaves in the result. *)
Module FieldVector.
Section Ops.
Variable ct : rcfType.
Variable n : nat.

(** [two_norm2]: the sum of the squared entries. *)
Definition two_norm2 (x : 'rV[ct]_n) : ct := \sum_i x 0 i ^+ 2.

(** [two_norm]: [sqrt(two_norm2())]. *)
Definition two_norm (x : 'rV[ct]_n) : ct := Num.sqrt (two_norm2 x).

(** [FieldVector<ct,n> idColumn(0); idColumn[j] = 1;] *)
Definition idColumn (j : 'I_n) : 'rV[ct]_n := \row_k (k == j)%:R.

End Ops.
End FieldVector.

Module FieldMatrix.
Section Ops.
Variable ct : rcfType.
Variables m n : nat.

(** [A.umtv(x, y)]: [y += A^T x], that is [y[j] += A[i][j] * x[i]] for all
    [i < rows], [j < cols]. *)
Definition umtv (A : 'M[ct]_(m, n)) (x : 'rV[ct]_m) (y : 'rV[ct]_n) : 'rV[ct]_n :=
  \row_j (y 0 j + \sum_i A i j * x 0 i).

(** [A.mtv(x, y)]: [y = A^T x], that is [y[j] = sum_i A[i][j] * x[i]]. *)
Definition mtv (A : 'M[ct]_(m, n)) (x : 'rV[ct]_m) : 'rV[ct]_n :=
  \row_j \sum_i A i j * x 0 i.

(** [A.mv(x, y)]: [y = A x], that is [y[i] = sum_j A[i][j] * x[j]]. *)
Definition mv (A : 'M[ct]_(m, n)) (x : 'rV[ct]_n) : 'rV[ct]_m :=
  \row_i \sum_j A i j * x 0 j.

(** [A[i] = v]: assignment of row [i]. *)
Definition set_row (A : 'M[ct]_(m, n)) (i : 'I_m) (v : 'rV[ct]_n) : 'M[ct]_(m, n) :=
  \matrix_(k, j) (if k == i then v 0 j else A k j).

(** [FMatrixHelp::multMatrix(A, B, ret)]: [ret[i][j] = sum_k A[i][k] * B[k][j]]. *)
Definition multMatrix (p : nat) (A : 'M[ct]_(m, n)) (B : 'M[ct]_(n, p)) : 'M[ct]_(m, p) :=
  \matrix_(i, j) \sum_k A i k * B k j.

End Ops.

(** [A.determinant()] of a square matrix. *)
Definition determinant (ct : rcfType) (n : nat) (A : 'M[ct]_n) : ct := \det A.

End FieldMatrix.

(** ** GenericGeometry::MatrixHelper *)
Module MatrixHelper.
Section RightInverse.
Variable ct : rcfType.
Variables m n : nat.

(** Modelled from the spec: [MatrixHelper::rightInvA< m, n >( A, ret )] of
    [dune/geometry/genericgeometry/matrixhelper.hh], which is not among the
    sources.  The specification describes it as the kernel that, given the
    [m x n] matrix [A], yields "its Moore-Penrose pseudo-inverse ([n x m])
    and the associated pseudo-determinant (scalar >= 0)", the latter being
    [sqrt(det(A A^T))].

    The pseudo-inverse is written through a rank factorisation [A = C F]
    ([C] of full column rank, [F] of full row rank):
    [A^+ = F^T (F F^T)^-1 (C^T C)^-1 C^T], the classical closed form of the
    Moore-Penrose inverse, defined for every [A], rank deficient or not. *)
Definition pseudoInverse (A : 'M[ct]_(m, n)) : 'M[ct]_(n, m) :=
  let C := col_base A in
  let F := row_base A in
  F^T *m invmx (F *m F^T) *m invmx (C^T *m C) *m C^T.

(** Modelled from the spec: the value [rightInvA] returns, the
    "pseudo-determinant (= integration element)", [|det A|] for a square
    matrix and [sqrt(det(A A^T))] in general. *)
Definition pseudoDeterminant (A : 'M[ct]_(m, n)) : ct :=
  Num.sqrt (\det (A *m A^T)).

(** Modelled from the spec: the pair (matrix written to [ret], value
    returned) of [rightInvA]. *)
Definition rightInvA (A : 'M[ct]_(m, n)) : 'M[ct]_(n, m) * ct :=
  (pseudoInverse A, pseudoDeterminant A).

End RightInverse.
End MatrixHelper.

(** ** Dune::ReferenceElement *)
Module ReferenceElement.
Section Contract.
Variable ct : rcfType.
Variable dim : nat.
Variable GeometryType : Type.

(** Modelled from the spec: the class [ReferenceElement< ctype, dim >] of
    [dune/geometry/referenceelements.hh], which is not among the sources
    ([affinegeometry.hh] only declares it).  The specification lists what is
    consumed of it: "size(codim) -> int (corner/subentity count at a given
    codimension), position(i, codim) -> LocalCoordinate (position of the
    i-th subentity of given codimension), volume() -> scalar (topological
    volume of the reference shape), type() -> GeometryTypeTag". *)
Record t : Type := Build {
  type : GeometryType;
  size : int -> int;
  position : int -> int -> 'rV[ct]_dim;
  volume : ct
}.

End Contract.
End ReferenceElement.

(** ** Dune::AffineGeometryTraits

    [template< class ct > struct AffineGeometryTraits]: the default of the
    parameter [Traits], with [MatrixHelper] the generic matrix helper and
    [struct UserData {}] an empty structure. *)
Module AffineGeometryTraits.

Definition UserData : Type := unit.

Definition rightInvA (ct : rcfType) (m n : nat) (A : 'M[ct]_(m, n))
    : 'M[ct]_(n, m) * ct :=
  MatrixHelper.rightInvA A.

End AffineGeometryTraits.

(** ** Dune::AffineGeometry *)
Module AffineGeometry.
Section Class.

(** The template parameters [ct], [mydim] and [cdim]. *)
Variable ct : rcfType.
Variables mydim cdim : nat.

(** [Dune::GeometryType] of [dune/geometry/type.hh]: an opaque tag here. *)
Variable GeometryType : Type.

(** The template parameter [Traits]: its member type [UserData] and the one
    function used of its member [MatrixHelper],
    [rightInvA< mydimension, coorddimension >]. *)
Variable UserData : Type.
Variable rightInvA : 'M[ct]_(mydim, cdim) -> 'M[ct]_(cdim, mydim) * ct.

Definition LocalCoordinate : Type := 'rV[ct]_mydim.
Definition GlobalCoordinate : Type := 'rV[ct]_cdim.
Definition JacobianTransposed : Type := 'M[ct]_(mydim, cdim).
Definition JacobianInverseTransposed : Type := 'M[ct]_(cdim, mydim).
Definition ReferenceElement : Type := ReferenceElement.t ct mydim GeometryType.

(** [ReferenceElements< ctype, mydimension >::general( gt )]: the catalogue
    of reference elements, read-only. *)
Variable general : GeometryType -> ReferenceElement.

(** [struct Storage : public UserData]: the base class subobject first, then
    the five members. *)
Record Storage : Type := {
  st_userData : UserData;
  st_refElement : ReferenceElement;
  st_origin : GlobalCoordinate;
  st_jacobianTransposed : JacobianTransposed;
  st_jacobianInverseTransposed : JacobianInverseTransposed;
  st_integrationElement : ct
}.

(** [Storage( refEl, org, jt, userData )]: the body calls [rightInvA], which
    writes [jacobianInverseTransposed] and returns the integration element. *)
Definition Storage_jt (refEl : ReferenceElement) (org : GlobalCoordinate)
    (jt : JacobianTransposed) (userData : UserData) : Storage :=
  {| st_userData := userData;
     st_refElement := refEl;
     st_origin := org;
     st_jacobianTransposed := jt;
     st_jacobianInverseTransposed := (rightInvA jt).1;
     st_integrationElement := (rightInvA jt).2 |}.

(** [coordVector[ i ]] for a [CoordVector] that is a sequence of global
    coordinates: defined inside the sequence, without meaning outside. *)
Definition subscript (coordVector : seq GlobalCoordinate) (i : nat)
    : Outcome GlobalCoordinate :=
  if (i < size coordVector)%N then Returns (nth 0 coordVector i) else Undefined.

(** One turn of [for( int i = 0; i < mydimension; ++i )
    jacobianTransposed[ i ] = coordVector[ i+1 ] - origin;]. *)
Definition assign_row (coordVector : seq GlobalCoordinate) (org : GlobalCoordinate)
    (acc : Outcome JacobianTransposed) (i : 'I_mydim) : Outcome JacobianTransposed :=
  jt <- acc ;;
  c <- subscript coordVector i.+1 ;;
  Returns (FieldMatrix.set_row jt i (c - org)).

(** [Storage( refEl, coordVector, userData )].  The member
    [jacobianTransposed] is default-initialised, so it starts with
    indeterminate entries: [uninitialized] stands for them. *)
Definition Storage_coordVector (uninitialized : JacobianTransposed)
    (refEl : ReferenceElement) (coordVector : seq GlobalCoordinate)
    (userData : UserData) : Outcome Storage :=
  org <- subscript coordVector 0 ;;
  jt <- foldl (assign_row coordVector org) (Returns uninitialized) (enum 'I_mydim) ;;
  Returns {| st_userData := userData;
             st_refElement := refEl;
             st_origin := org;
             st_jacobianTransposed := jt;
             st_jacobianInverseTransposed := (rightInvA jt).1;
             st_integrationElement := (rightInvA jt).2 |}.

(** An [AffineGeometry] object has the single member [storage_]. *)
Definition AffineGeometry : Type := Storage.

(** The four constructors. *)
Definition AffineGeometry_refElement_jt (refElement : ReferenceElement)
    (origin : GlobalCoordinate) (jt : JacobianTransposed) (userData : UserData)
    : AffineGeometry :=
  Storage_jt refElement origin jt userData.

Definition AffineGeometry_gt_jt (gt : GeometryType)
    (origin : GlobalCoordinate) (jt : JacobianTransposed) (userData : UserData)
    : AffineGeometry :=
  Storage_jt (general gt) origin jt userData.

Definition AffineGeometry_refElement_coordVector (uninitialized : JacobianTransposed)
    (refElement : ReferenceElement) (coordVector : seq GlobalCoordinate)
    (userData : UserData) : Outcome AffineGeometry :=
  Storage_coordVector uninitialized refElement coordVector userData.

Definition AffineGeometry_gt_coordVector (uninitialized : JacobianTransposed)
    (gt : GeometryType) (coordVector : seq GlobalCoordinate)
    (userData : UserData) : Outcome AffineGeometry :=
  Storage_coordVector uninitialized (general gt) coordVector userData.

Definition storage (g : AffineGeometry) : Storage := g.

Definition refElement (g : AffineGeometry) : ReferenceElement :=
  st_refElement (storage g).

(** [bool affine () const { return true; }] *)
Definition affine (g : AffineGeometry) : bool := true.

(** [type () const { return refElement().type(); }] *)
Definition type (g : AffineGeometry) : GeometryType :=
  ReferenceElement.type (refElement g).

(** [corners () const { return refElement().size( mydimension ); }] *)
Definition corners (g : AffineGeometry) : int :=
  ReferenceElement.size (refElement g) (Posz mydim).

(** [global ( local )]: [GlobalCoordinate global( storage().origin );
    storage().jacobianTransposed.umtv( local, global ); return global;] *)
Definition global (g : AffineGeometry) (local : LocalCoordinate) : GlobalCoordinate :=
  FieldMatrix.umtv (st_jacobianTransposed (storage g)) local (st_origin (storage g)).

(** [corner ( i )]: [return global( refElement().position( i, mydimension ) );]
    The body has no test on [i] and no [throw]: every call returns. *)
Definition corner (g : AffineGeometry) (i : int) : Outcome GlobalCoordinate :=
  Returns (global g (ReferenceElement.position (refElement g) i (Posz mydim))).

(** [center () const { return global( refElement().position( 0, 0 ) ); }] *)
Definition center (g : AffineGeometry) : GlobalCoordinate :=
  global g (ReferenceElement.position (refElement g) 0 0).

(** [local ( global )]: [storage().jacobianInverseTransposed.mtv(
    global - storage().origin, local ); return local;] *)
Definition local (g : AffineGeometry) (global : GlobalCoordinate) : LocalCoordinate :=
  FieldMatrix.mtv (st_jacobianInverseTransposed (storage g))
                  (global - st_origin (storage g)).

(** [integrationElement ( local )]: the cached value. *)
Definition integrationElement (g : AffineGeometry) (local : LocalCoordinate) : ct :=
  st_integrationElement (storage g).

(** [volume ()]: [storage().integrationElement * refElement().volume()]. *)
Definition volume (g : AffineGeometry) : ct :=
  st_integrationElement (storage g) * ReferenceElement.volume (refElement g).

(** [jacobianTransposed ( local )]: the cached matrix. *)
Definition jacobianTransposed (g : AffineGeometry) (local : LocalCoordinate)
    : JacobianTransposed :=
  st_jacobianTransposed (storage g).

(** [jacobianInverseTransposed ( local )]: the cached matrix. *)
Definition jacobianInverseTransposed (g : AffineGeometry) (local : LocalCoordinate)
    : JacobianInverseTransposed :=
  st_jacobianInverseTransposed (storage g).

(** [const UserData &userData () const { return storage_; }]: the base class
    subobject of [storage_]. *)
Definition userData (g : AffineGeometry) : UserData := st_userData (storage g).

(** A write through [UserData &userData () { return storage_; }]: the
    reference designates the [UserData] subobject of [storage_], so
    assigning [u] to it replaces that subobject and nothing else. *)
Definition userData_assign (g : AffineGeometry) (u : UserData) : AffineGeometry :=
  {| st_userData := u;
     st_refElement := st_refElement g;
     st_origin := st_origin g;
     st_jacobianTransposed := st_jacobianTransposed g;
     st_jacobianInverseTransposed := st_jacobianInverseTransposed g;
     st_integrationElement := st_integrationElement g |}.

End Class.
End AffineGeometry.

(** ** checkGeometry *)
Module CheckGeometry.
Section Function.

Variable ct : rcfType.
(** [TestGeometry::mydimension] and [TestGeometry::coorddimension]. *)
Variables mydim coorddim : nat.
Variable GeometryType : Type.

Definition LocalCoordinate : Type := 'rV[ct]_mydim.
Definition GlobalCoordinate : Type := 'rV[ct]_coorddim.

(** The template parameter [TestGeometry]: the members [checkGeometry]
    uses, each a pure function as the queries of a geometry are.  Of the two
    Jacobian types only [mv] is used, so they are kept abstract with that
    one method. *)
Record TestGeometry : Type := {
  JacobianTransposed : Type;
  jt_mv : JacobianTransposed -> GlobalCoordinate -> LocalCoordinate;
  JacobianInverseTransposed : Type;
  jit_mv : JacobianInverseTransposed -> LocalCoordinate -> GlobalCoordinate;
  type : GeometryType;
  affine : bool;
  corners : int;
  corner : int -> GlobalCoordinate;
  center : GlobalCoordinate;
  global : LocalCoordinate -> GlobalCoordinate;
  local : GlobalCoordinate -> LocalCoordinate;
  integrationElement : LocalCoordinate -> ct;
  volume : ct;
  jacobianTransposed : LocalCoordinate -> JacobianTransposed;
  jacobianInverseTransposed : LocalCoordinate -> JacobianInverseTransposed
}.

(** [ReferenceElements< ctype, mydim >::general( type )]. *)
Variable general : GeometryType -> ReferenceElement.t ct mydim GeometryType.

(** Modelled from the spec: [GenericQuadratureFactory::create] of
    [dune/geometry/quadraturerules/gaussquadrature.hh], which is not among
    the sources: "create(typeTag, degree) -> sequence of (LocalCoordinate,
    weight)".  [checkGeometry] reads the positions only, and releases the
    rule before it returns. *)
Record QuadraturePoint : Type := {
  position : LocalCoordinate;
  weight : ct
}.
Variable create : GeometryType -> nat -> seq QuadraturePoint.

(** [std::numeric_limits< ctype >::epsilon()]. *)
Variable epsilon : ct.

(** The literal [1e-8]. *)
Definition tolerance : ct := 10%:R ^- 8.

(** The lines written to [std::cerr], one constructor per message:
    - "Error: Methods corner and global are inconsistent."
    - "Error: Incorrect number of corners (found, should be expected)."
    - "Error: global and local are not inverse to each other."
    - "Error: jacobianTransposed and jacobianInverseTransposed are not
      inverse to each other." (followed on [std::cout] by the matrix [id])
    - "Error: Negative integrationElement found."
    - "Error: integrationElement is not consistent with jacobianTransposed."
    - "Error: volume is not consistent with jacobianTransposed." *)
Inductive Diagnostic : Type :=
  | CornerGlobalInconsistent
  | IncorrectNumberOfCorners (found expected : int)
  | GlobalLocalNotInverse
  | JacobiansNotInverse (id : 'M[ct]_mydim)
  | NegativeIntegrationElement
  | IntegrationElementInconsistent
  | VolumeInconsistent.

(** The local variable [pass] and what has been written to [std::cerr]. *)
Definition State : Type := (bool * seq Diagnostic)%type.

(** [std::cerr << ... ; pass = false;] *)
Definition report (d : Diagnostic) (st : State) : State := (false, rcons st.2 d).

(** The values [i] takes in [for( int i = 0; i < n; ++i )]. *)
Definition int_range (n : int) : seq int :=
  match n with
  | Posz k => [seq Posz i | i <- iota 0 k]
  | Negz _ => [::]
  end.

(** The test made on corner [i]. *)
Definition corner_inconsistent (geometry : TestGeometry)
    (refElement : ReferenceElement.t ct mydim GeometryType) (i : int) : bool :=
  FieldVector.two_norm
    (corner geometry i
     - global geometry (ReferenceElement.position refElement i (Posz mydim)))
  > tolerance.

(** The body of the loop over the corners. *)
Definition check_corner (geometry : TestGeometry)
    (refElement : ReferenceElement.t ct mydim GeometryType)
    (st : State) (i : int) : State :=
  if corner_inconsistent geometry refElement i
  then report CornerGlobalInconsistent st
  else st.

(** [jtAsFieldMatrix[k][j] = column[k]] with [jt.mv(idColumn, column)]. *)
Definition jtAsFieldMatrix (geometry : TestGeometry) (jt : JacobianTransposed geometry)
    : 'M[ct]_(mydim, coorddim) :=
  \matrix_(k, j) jt_mv jt (FieldVector.idColumn ct j) 0 k.

(** [jitAsFieldMatrix[k][j] = column[k]] with [jit.mv(idColumn, column)]. *)
Definition jitAsFieldMatrix (geometry : TestGeometry)
    (jit : JacobianInverseTransposed geometry) : 'M[ct]_(coorddim, mydim) :=
  \matrix_(k, j) jit_mv jit (FieldVector.idColumn ct j) 0 k.

(** [isId &= (std::abs( id[ j ][ k ] - (j == k ? 1 : 0) ) < 1e-8)] over all
    [j], [k]. *)
Definition isId (id : 'M[ct]_mydim) : bool :=
  all (fun j => all (fun k => `|id j k - (j == k)%:R| < tolerance) (enum 'I_mydim))
      (enum 'I_mydim).

(** [jtj[ i ][ j ] += jtAsFieldMatrix[ i ][ k ] * jtAsFieldMatrix[ j ][ k ]]
    from [jtj( 0 )]. *)
Definition jtj (jt : 'M[ct]_(mydim, coorddim)) : 'M[ct]_mydim :=
  \matrix_(i, j) \sum_k jt i k * jt j k.

(** The five tests made at a quadrature point [x], in the order of the
    source; each is the condition under which the message is written. *)
Definition not_inverse (geometry : TestGeometry) (x : LocalCoordinate) : bool :=
  FieldVector.two_norm (x - local geometry (global geometry x)) > Num.sqrt epsilon.

Definition product (geometry : TestGeometry) (x : LocalCoordinate) : 'M[ct]_mydim :=
  FieldMatrix.multMatrix (jtAsFieldMatrix (jacobianTransposed geometry x))
                         (jitAsFieldMatrix (jacobianInverseTransposed geometry x)).

Definition negative_integrationElement (geometry : TestGeometry)
    (x : LocalCoordinate) : bool :=
  integrationElement geometry x < 0.

Definition integrationElement_inconsistent (geometry : TestGeometry)
    (x : LocalCoordinate) : bool :=
  `|Num.sqrt (FieldMatrix.determinant
                (jtj (jtAsFieldMatrix (jacobianTransposed geometry x))))
    - integrationElement geometry x| > tolerance.

Definition volume_inconsistent (geometry : TestGeometry)
    (refElement : ReferenceElement.t ct mydim GeometryType)
    (x : LocalCoordinate) : bool :=
  affine geometry &&
  (`|volume geometry
     - ReferenceElement.volume refElement * integrationElement geometry x|
   > tolerance).

(** The body of the loop over the quadrature points. *)
Definition check_point (geometry : TestGeometry)
    (refElement : ReferenceElement.t ct mydim GeometryType)
    (st : State) (q : QuadraturePoint) : State :=
  let x := position q in
  let st := if not_inverse geometry x then report GlobalLocalNotInverse st else st in
  let id := product geometry x in
  let st := if ~~ isId id then report (JacobiansNotInverse id) st else st in
  let st := if negative_integrationElement geometry x
            then report NegativeIntegrationElement st else st in
  let st := if integrationElement_inconsistent geometry x
            then report IntegrationElementInconsistent st else st in
  let st := if volume_inconsistent geometry refElement x
            then report VolumeInconsistent st else st in
  st.

(** The test on [center()], which ends in [DUNE_THROW]. *)
Definition center_inconsistent (geometry : TestGeometry) : bool :=
  let refElement := general (type geometry) in
  let center0 := global geometry (ReferenceElement.position refElement 0 0) in
  `|FieldVector.two_norm (center geometry - center0)| > tolerance.

(** The block on the number and placement of the corners. *)
Definition check_corners (geometry : TestGeometry) (st : State) : State :=
  let refElement := general (type geometry) in
  if ReferenceElement.size refElement (Posz mydim) == corners geometry
  then foldl (check_corner geometry refElement) st (int_range (corners geometry))
  else report (IncorrectNumberOfCorners (corners geometry)
                 (ReferenceElement.size refElement (Posz mydim))) st.

(** [checkGeometry( geometry )]: the value returned and the lines written
    to [std::cerr], or the exception thrown. *)
Definition checkGeometry (geometry : TestGeometry) : Outcome State :=
  let refElement := general (type geometry) in
  if center_inconsistent geometry
  then Throws (DuneException
         "center() is not consistent with global(refElem.position(0,0)).")
  else
    let st := check_corners geometry (true, [::]) in
    let quadrature := create (type geometry) 2 in
    Returns (foldl (check_point geometry refElement) st quadrature).

(** *** What a complete run reports

    The lines a run that visits every test writes, stated without the
    threaded state: one line per failed test, in the order of the tests. *)
Definition line (failed : bool) (d : Diagnostic) : seq Diagnostic :=
  if failed then [:: d] else [::].

Definition corner_report (geometry : TestGeometry) : seq Diagnostic :=
  let refElement := general (type geometry) in
  if ReferenceElement.size refElement (Posz mydim) == corners geometry
  then flatten [seq line (corner_inconsistent geometry refElement i)
                         CornerGlobalInconsistent
               | i <- int_range (corners geometry)]
  else [:: IncorrectNumberOfCorners (corners geometry)
             (ReferenceElement.size refElement (Posz mydim))].

Definition point_report (geometry : TestGeometry) (x : LocalCoordinate)
    : seq Diagnostic :=
  let refElement := general (type geometry) in
  line (not_inverse geometry x) GlobalLocalNotInverse
  ++ line (~~ isId (product geometry x)) (JacobiansNotInverse (product geometry x))
  ++ line (negative_integrationElement geometry x) NegativeIntegrationElement
  ++ line (integrationElement_inconsistent geometry x) IntegrationElementInconsistent
  ++ line (volume_inconsistent geometry refElement x) VolumeInconsistent.

Definition full_report (geometry : TestGeometry) : seq Diagnostic :=
  corner_report geometry
  ++ flatten [seq point_report geometry (position q)
             | q <- create (type geometry) 2].

Definition is_CornerGlobalInconsistent (d : Diagnostic) : bool :=
  if d is CornerGlobalInconsistent then true else false.


End Function.

Arguments CornerGlobalInconsistent {ct mydim}.
Arguments IncorrectNumberOfCorners {ct mydim} found expected.
Arguments GlobalLocalNotInverse {ct mydim}.
Arguments JacobiansNotInverse {ct mydim} id.
Arguments NegativeIntegrationElement {ct mydim}.
Arguments IntegrationElementInconsistent {ct mydim}.
Arguments VolumeInconsistent {ct mydim}.

End CheckGeometry.

(** ** An affine geometry as an argument of checkGeometry *)
Section AsTestGeometry.
Variable ct : rcfType.
Variables mydim cdim : nat.
Variable GeometryType : Type.
Variable UserData : Type.

(** The instantiation [checkGeometry< AffineGeometry< ct, mydim, cdim > >]:
    each member of [TestGeometry] is the member of the same name of the
    class; both Jacobian types are [FieldMatrix], whose [mv] is used.
    [corner] is the value the call returns. *)
Definition asTestGeometry
    (g : AffineGeometry.AffineGeometry ct mydim cdim GeometryType UserData)
    : CheckGeometry.TestGeometry ct mydim cdim GeometryType :=
  {| CheckGeometry.JacobianTransposed := 'M[ct]_(mydim, cdim);
     CheckGeometry.jt_mv := fun A x => FieldMatrix.mv A x;
     CheckGeometry.JacobianInverseTransposed := 'M[ct]_(cdim, mydim);
     CheckGeometry.jit_mv := fun A x => FieldMatrix.mv A x;
     CheckGeometry.type := AffineGeometry.type g;
     CheckGeometry.affine := AffineGeometry.affine g;
     CheckGeometry.corners := AffineGeometry.corners g;
     CheckGeometry.corner := fun i =>
       match AffineGeometry.corner g i with
       | Returns c => c
       | _ => 0
       end;
     CheckGeometry.center := AffineGeometry.center g;
     CheckGeometry.global := AffineGeometry.global g;
     CheckGeometry.local := AffineGeometry.local g;
     CheckGeometry.integrationElement := AffineGeometry.integrationElement g;
     CheckGeometry.volume := AffineGeometry.volume g;
     CheckGeometry.jacobianTransposed := AffineGeometry.jacobianTransposed g;
     CheckGeometry.jacobianInverseTransposed :=
       AffineGeometry.jacobianInverseTransposed g |}.

(** Geometries that differ from [g] in one member: implementations with a
    defect in that member, the inputs [checkGeometry] exists to detect. *)
Definition with_center (g : CheckGeometry.TestGeometry ct mydim cdim GeometryType)
    (c : 'rV[ct]_cdim) : CheckGeometry.TestGeometry ct mydim cdim GeometryType :=
  {| CheckGeometry.JacobianTransposed := CheckGeometry.JacobianTransposed g;
     CheckGeometry.jt_mv := @CheckGeometry.jt_mv _ _ _ _ g;
     CheckGeometry.JacobianInverseTransposed := CheckGeometry.JacobianInverseTransposed g;
     CheckGeometry.jit_mv := @CheckGeometry.jit_mv _ _ _ _ g;
     CheckGeometry.type := CheckGeometry.type g;
     CheckGeometry.affine := CheckGeometry.affine g;
     CheckGeometry.corners := CheckGeometry.corners g;
     CheckGeometry.corner := CheckGeometry.corner g;
     CheckGeometry.center := c;
     CheckGeometry.global := CheckGeometry.global g;
     CheckGeometry.local := CheckGeometry.local g;
     CheckGeometry.integrationElement := CheckGeometry.integrationElement g;
     CheckGeometry.volume := CheckGeometry.volume g;
     CheckGeometry.jacobianTransposed := @CheckGeometry.jacobianTransposed _ _ _ _ g;
     CheckGeometry.jacobianInverseTransposed :=
       @CheckGeometry.jacobianInverseTransposed _ _ _ _ g |}.

Definition with_corners (g : CheckGeometry.TestGeometry ct mydim cdim GeometryType)
    (n : int) : CheckGeometry.TestGeometry ct mydim cdim GeometryType :=
  {| CheckGeometry.JacobianTransposed := CheckGeometry.JacobianTransposed g;
     CheckGeometry.jt_mv := @CheckGeometry.jt_mv _ _ _ _ g;
     CheckGeometry.JacobianInverseTransposed := CheckGeometry.JacobianInverseTransposed g;
     CheckGeometry.jit_mv := @CheckGeometry.jit_mv _ _ _ _ g;
     CheckGeometry.type := CheckGeometry.type g;
     CheckGeometry.affine := CheckGeometry.affine g;
     CheckGeometry.corners := n;
     CheckGeometry.corner := CheckGeometry.corner g;
     CheckGeometry.center := CheckGeometry.center g;
     CheckGeometry.global := CheckGeometry.global g;
     CheckGeometry.local := CheckGeometry.local g;
     CheckGeometry.integrationElement := CheckGeometry.integrationElement g;
     CheckGeometry.volume := CheckGeometry.volume g;
     CheckGeometry.jacobianTransposed := @CheckGeometry.jacobianTransposed _ _ _ _ g;
     CheckGeometry.jacobianInverseTransposed :=
       @CheckGeometry.jacobianInverseTransposed _ _ _ _ g |}.

Definition with_corner (g : CheckGeometry.TestGeometry ct mydim cdim GeometryType)
    (c : int -> 'rV[ct]_cdim) : CheckGeometry.TestGeometry ct mydim cdim GeometryType :=
  {| CheckGeometry.JacobianTransposed := CheckGeometry.JacobianTransposed g;
     CheckGeometry.jt_mv := @CheckGeometry.jt_mv _ _ _ _ g;
     CheckGeometry.JacobianInverseTransposed := CheckGeometry.JacobianInverseTransposed g;
     CheckGeometry.jit_mv := @CheckGeometry.jit_mv _ _ _ _ g;
     CheckGeometry.type := CheckGeometry.type g;
     CheckGeometry.affine := CheckGeometry.affine g;
     CheckGeometry.corners := CheckGeometry.corners g;
     CheckGeometry.corner := c;
     CheckGeometry.center := CheckGeometry.center g;
     CheckGeometry.global := CheckGeometry.global g;
     CheckGeometry.local := CheckGeometry.local g;
     CheckGeometry.integrationElement := CheckGeometry.integrationElement g;
     CheckGeometry.volume := CheckGeometry.volume g;
     CheckGeometry.jacobianTransposed := @CheckGeometry.jacobianTransposed _ _ _ _ g;
     CheckGeometry.jacobianInverseTransposed :=
       @CheckGeometry.jacobianInverseTransposed _ _ _ _ g |}.

End AsTestGeometry.

(** ** Concrete inputs

    Geometries and corner lists over the real algebraic numbers, on the
    reference interval [[0, 1]]: two vertices [0] and [1] (codimension 1),
    one element with barycentre [1/2] (codimension 0), volume [1]. *)
Module Scenario.

Definition unitInterval : ReferenceElement.t algR 1 unit :=
  ReferenceElement.Build tt
    (fun c => if c == 1 then 2 else if c == 0 then 1 else 0)
    (fun i c => if (c == 1) && (i == 1) then const_mx 1
                else if c == 0 then const_mx 2^-1
                else 0)
    1.

Definition general (gt : unit) : ReferenceElement.t algR 1 unit := unitInterval.

(** The Gauss rule with two points on the interval. *)
Definition create (gt : unit) (order : nat) : seq (CheckGeometry.QuadraturePoint algR 1) :=
  [:: {| CheckGeometry.position := const_mx (2^-1 - (2 * Num.sqrt 3)^-1);
         CheckGeometry.weight := 2^-1 |};
      {| CheckGeometry.position := const_mx (2^-1 + (2 * Num.sqrt 3)^-1);
         CheckGeometry.weight := 2^-1 |}].

(** [std::numeric_limits< double >::epsilon()]. *)
Definition epsilon : algR := 2%:R ^- 52.


(** The interval stretched to [[0, 2]]: [x |-> 2 x]. *)
Definition stretched : AffineGeometry.AffineGeometry algR 1 1 unit unit :=
  AffineGeometry.AffineGeometry_refElement_jt
    (@AffineGeometryTraits.rightInvA algR 1 1) unitInterval 0 (2%:R)%:M tt.


(** Corner lists for [mydim = 1], of two and of three entries. *)
Definition two_corners : seq 'rV[algR]_1 := [:: 0; const_mx 2].
Definition three_corners : seq 'rV[algR]_1 := [:: 0; const_mx 2; const_mx 5].

(** [stretched] with a [center()] that returns the image of vertex [0]
    instead of the image of the barycentre. *)
Definition off_center : CheckGeometry.TestGeometry algR 1 1 unit :=
  with_center (asTestGeometry stretched) 0.

(** [off_center] that moreover reports three corners. *)
Definition off_center_three_corners : CheckGeometry.TestGeometry algR 1 1 unit :=
  with_corners off_center 3.

(** [stretched] reporting three corners, its other members intact. *)
Definition three_cornered : CheckGeometry.TestGeometry algR 1 1 unit :=
  with_corners (asTestGeometry stretched) 3.

End Scenario.

(** ** The scenarios of the specification

    The reference triangle with vertices [(0,0)], [(1,0)], [(0,1)], edge
    midpoints in codimension 1, barycentre [(1/3,1/3)] and volume [1/2], and
    the four mappings of the specification's concrete scenarios. *)
Module Triangle.

Definition vec2 (a b : algR) : 'rV[algR]_2 := \row_j (if j == 0 then a else b).

Definition vec3 (a b c : algR) : 'rV[algR]_3 :=
  \row_j (if j == 0 then a else if j == 1 :> nat then b else c).

Definition unitTriangle : ReferenceElement.t algR 2 unit :=
  ReferenceElement.Build tt
    (fun c => if c == 2 then 3 else if c == 1 then 3 else if c == 0 then 1 else 0)
    (fun i c =>
       if c == 2 then
         (if i == 1 then vec2 1 0 else if i == 2 then vec2 0 1 else vec2 0 0)
       else if c == 1 then
         (if i == 1 then vec2 0 2^-1 else if i == 2 then vec2 2^-1 2^-1
          else vec2 2^-1 0)
       else vec2 3^-1 3^-1)
    2^-1.

(** Scenario A: the identity Jacobian. *)
Definition scenarioA : AffineGeometry.AffineGeometry algR 2 2 unit unit :=
  AffineGeometry.AffineGeometry_refElement_jt
    (@AffineGeometryTraits.rightInvA algR 2 2) unitTriangle 0 1%:M tt.

(** Scenario B: the corners [(0,0)], [(2,0)], [(0,2)]. *)
Definition cornersB : seq 'rV[algR]_2 := [:: vec2 0 0; vec2 2 0; vec2 0 2].

(** Scenario C: the collinear corners [(0,0)], [(1,0)], [(2,0)]. *)
Definition cornersC : seq 'rV[algR]_2 := [:: vec2 0 0; vec2 1 0; vec2 2 0].

(** Scenario D: the corners [(0,0,0)], [(1,0,0)], [(0,1,0)] in space. *)
Definition cornersD : seq 'rV[algR]_3 := [:: vec3 0 0 0; vec3 1 0 0; vec3 0 1 0].

End Triangle.

(** * Properties

    From here on, lemmas only: first the algebra of the matrix operations
    and of the pseudo-inverse kernel, then the properties of the mapping, of
    its construction and of the checker, and last their instances on the
    concrete inputs. *)

(** ** Matrix-vector products as matrix products *)
Section FieldMatrixFacts.
Variable ct : rcfType.
Variables m n : nat.
Implicit Types (A : 'M[ct]_(m, n)).

Lemma umtvE A x y : FieldMatrix.umtv A x y = y + x *m A.
Proof.
apply/rowP => j; rewrite !mxE; congr (_ + _).
by apply: eq_bigr => i _; rewrite mulrC.
Qed.

Lemma mtvE A x : FieldMatrix.mtv A x = x *m A.
Proof. by apply/rowP => j; rewrite !mxE; apply: eq_bigr => i _; rewrite mulrC. Qed.

Lemma mvE A x : FieldMatrix.mv A x = x *m A^T.
Proof.
by apply/rowP => j; rewrite !mxE; apply: eq_bigr => i _; rewrite !mxE mulrC.
Qed.


End FieldMatrixFacts.

(** ** Gram matrices over a real field *)
Section Gram.
Variable ct : rcfType.

Lemma two_norm2_dot n (v : 'rV[ct]_n) : FieldVector.two_norm2 v = (v *m v^T) 0 0.
Proof. by rewrite mxE; apply: eq_bigr => i _; rewrite mxE expr2. Qed.


Lemma two_norm2_eq0 n (v : 'rV[ct]_n) : FieldVector.two_norm2 v = 0 -> v = 0.
Proof.
rewrite /FieldVector.two_norm2 => /eqP.
rewrite psumr_eq0; first by move=> i _; apply: sqr_ge0.
move/allP => v0; apply/rowP => j; rewrite mxE; apply/eqP.
by rewrite -(sqrf_eq0 (v 0 j)); apply: (v0 j); rewrite mem_index_enum.
Qed.

Lemma two_norm0 n : FieldVector.two_norm (0 : 'rV[ct]_n) = 0.
Proof.
rewrite /FieldVector.two_norm /FieldVector.two_norm2.
by rewrite big1 ?sqrtr0 // => i _; rewrite mxE expr0n.
Qed.

Lemma dot_self_eq0 n (v : 'rV[ct]_n) : v *m v^T = 0 -> v = 0.
Proof.
by move=> vv0; apply: two_norm2_eq0; rewrite two_norm2_dot vv0 mxE.
Qed.

Lemma gram_unit r n (M : 'M[ct]_(r, n)) : row_free M -> M *m M^T \in unitmx.
Proof.
move=> /row_freeP[B MB1]; rewrite -row_free_unit -kermx_eq0.
apply/eqP/row_matrixP => i; rewrite row0.
have := mulmx_ker (M *m M^T); move/(congr1 (row i)).
rewrite row_mul row0; set v := row i _ => vG0.
have vM0 : v *m M = 0.
  by apply: dot_self_eq0; rewrite trmx_mul -mulmxA [M *m _]mulmxA [v *m _]mulmxA vG0 mul0mx.
by rewrite -[v]mulmx1 -MB1 mulmxA vM0 mul0mx.
Qed.

End Gram.

(** ** The pseudo-inverse kernel *)
Section RankFactorisation.
Variable ct : rcfType.
Variables m r n : nat.
Variables (C : 'M[ct]_(m, r)) (F : 'M[ct]_(r, n)).
Hypothesis Cu : C^T *m C \in unitmx.
Hypothesis Fu : F *m F^T \in unitmx.

Local Notation A := (C *m F).
Local Notation A' := (F^T *m invmx (F *m F^T) *m invmx (C^T *m C) *m C^T).

Lemma factor_mul_pinv : A *m A' = C *m invmx (C^T *m C) *m C^T.
Proof.
rewrite !mulmxA -[C *m F *m F^T]mulmxA.
by rewrite -[C *m _ *m invmx (F *m F^T)]mulmxA mulmxV ?mulmx1.
Qed.

Lemma factor_pinv_mul : A' *m A = F^T *m invmx (F *m F^T) *m F.
Proof.
rewrite !mulmxA -[_ *m C^T *m C]mulmxA.
by rewrite -[_ *m invmx (C^T *m C) *m _]mulmxA mulVmx ?mulmx1.
Qed.

Lemma factor_penrose :
  [/\ A *m A' *m A = A,
      A' *m A *m A' = A',
      (A *m A')^T = A *m A' &
      (A' *m A)^T = A' *m A].
Proof.
split.
- rewrite factor_mul_pinv mulmxA.
  by rewrite -[_ *m C^T *m C]mulmxA -[C *m _ *m _]mulmxA mulVmx ?mulmx1.
- rewrite factor_pinv_mul !mulmxA.
  rewrite -[_ *m F *m F^T]mulmxA -[_ *m (F *m F^T) *m _]mulmxA.
  by rewrite mulmxV ?mulmx1.
- rewrite factor_mul_pinv !trmx_mul trmxK trmx_inv trmx_mul trmxK.
  by rewrite mulmxA.
- rewrite factor_pinv_mul !trmx_mul trmxK trmx_inv trmx_mul trmxK.
  by rewrite mulmxA.
Qed.

End RankFactorisation.

Section PseudoInverseFacts.
Variable ct : rcfType.
Variables m n : nat.
Variable A : 'M[ct]_(m, n).

Lemma row_base_gram_unit : row_base A *m (row_base A)^T \in unitmx.
Proof. exact: gram_unit (row_base_free A). Qed.

Lemma col_base_gram_unit : (col_base A)^T *m col_base A \in unitmx.
Proof.
have /row_fullP[B BC1] := col_base_full A.
have Cfree : row_free (col_base A)^T.
  by apply/row_freeP; exists B^T; rewrite -trmx_mul BC1 trmx1.
by have := gram_unit Cfree; rewrite trmxK.
Qed.

(** The four Penrose equations: [pseudoInverse A] is the Moore-Penrose
    inverse of [A]. *)
Lemma pseudoInverse_penrose :
  let A' := MatrixHelper.pseudoInverse A in
  [/\ A *m A' *m A = A,
      A' *m A *m A' = A',
      (A *m A')^T = A *m A' &
      (A' *m A)^T = A' *m A].
Proof.
have := factor_penrose col_base_gram_unit row_base_gram_unit.
by rewrite mulmx_base.
Qed.

(** On a matrix of full row rank the kernel yields a right inverse, in the
    familiar closed form. *)
Lemma pseudoInverse_right : row_free A -> A *m MatrixHelper.pseudoInverse A = 1%:M.
Proof.
move=> /row_freeP[B AB1]; have [P1 _ _ _] := pseudoInverse_penrose.
by rewrite -[LHS]mulmx1 -AB1 mulmxA P1.
Qed.

Lemma pseudoInverse_full_rank :
  row_free A -> MatrixHelper.pseudoInverse A = A^T *m invmx (A *m A^T).
Proof.
move=> Afree; have [P1 _ _ P4] := pseudoInverse_penrose.
have AAu := gram_unit Afree.
rewrite -[LHS]mulmx1 -(mulmxV AAu) !mulmxA; congr (_ *m _).
by rewrite -P4 -trmx_mul mulmxA P1.
Qed.

Lemma pseudoDeterminant_ge0 : 0 <= MatrixHelper.pseudoDeterminant A.
Proof. exact: sqrtr_ge0. Qed.

End PseudoInverseFacts.

(** A square matrix of full rank: the kernel is the ordinary inverse. *)
Lemma pseudoInverse_square (ct : rcfType) (n : nat) (A : 'M[ct]_n) :
  row_free A -> MatrixHelper.pseudoInverse A = invmx A.
Proof.
move=> Afree; have Au : A \in unitmx by rewrite -row_free_unit.
rewrite -[LHS]mul1mx -(mulVmx Au) -mulmxA pseudoInverse_right //.
by rewrite mulmx1.
Qed.

(** ** The affine mapping and its inverse *)
Section AffineGeometryFacts.
Variable ct : rcfType.
Variables mydim cdim : nat.
Variable GeometryType : Type.
Variable UserData : Type.

Local Notation Geometry := (AffineGeometry.AffineGeometry ct mydim cdim GeometryType UserData).
Local Notation jt := AffineGeometry.st_jacobianTransposed.
Local Notation jit := AffineGeometry.st_jacobianInverseTransposed.
Local Notation origin := AffineGeometry.st_origin.

Implicit Types (g : Geometry) (x : 'rV[ct]_mydim) (y : 'rV[ct]_cdim).

Lemma globalE g x : AffineGeometry.global g x = origin g + x *m jt g.
Proof. by rewrite /AffineGeometry.global umtvE. Qed.

Lemma localE g y : AffineGeometry.local g y = (y - origin g) *m jit g.
Proof. by rewrite /AffineGeometry.local mtvE. Qed.

Lemma local_globalE g x :
  AffineGeometry.local g (AffineGeometry.global g x) = x *m (jt g *m jit g).
Proof. by rewrite localE globalE addrC addKr mulmxA. Qed.

(** The round trip is the identity exactly when the cached pseudo-inverse is
    a right inverse of the cached Jacobian. *)
Lemma local_global_id_iff g :
  (forall x, AffineGeometry.local g (AffineGeometry.global g x) = x)
  <-> jt g *m jit g = 1%:M.
Proof.
split=> [rt | JJ1 x]; last by rewrite local_globalE JJ1 mulmx1.
by apply/row_matrixP => i; rewrite rowE -local_globalE rt row1.
Qed.

End AffineGeometryFacts.

(** ** Construction from a corner list *)
Section CornerListFacts.
Variable ct : rcfType.
Variables mydim cdim : nat.
Variable GeometryType : Type.
Variable UserData : Type.
Variable rightInvA : 'M[ct]_(mydim, cdim) -> 'M[ct]_(cdim, mydim) * ct.

Implicit Types (cv : seq 'rV[ct]_cdim) (org : 'rV[ct]_cdim).
Implicit Types (A : 'M[ct]_(mydim, cdim)) (s : seq 'I_mydim).

Lemma subscript_in cv (i : nat) :
  (i < size cv)%N -> AffineGeometry.subscript cv i = Returns (nth 0 cv i).
Proof. by rewrite /AffineGeometry.subscript => ->. Qed.

Lemma subscript_out cv (i : nat) :
  (size cv <= i)%N -> AffineGeometry.subscript cv i = Undefined.
Proof. by rewrite /AffineGeometry.subscript ltnNge => ->. Qed.

Lemma foldl_assign_row_undefined cv org s :
  foldl (AffineGeometry.assign_row cv org) Undefined s = Undefined.
Proof. by elim: s. Qed.

(** When every index read lies inside the list, the loop overwrites exactly
    the rows it visits. *)
Lemma foldl_assign_row_in cv org s A :
  (forall i : 'I_mydim, i \in s -> (i.+1 < size cv)%N) ->
  foldl (AffineGeometry.assign_row cv org) (Returns A) s
  = Returns (\matrix_(k, j) (if k \in s then (nth 0 cv k.+1 - org) 0 j else A k j)).
Proof.
elim: s A => [|i s IH] A ins /=.
  by congr Returns; apply/matrixP => k j; rewrite mxE.
rewrite /AffineGeometry.assign_row /= subscript_in ?ins ?mem_head //=.
rewrite -/(AffineGeometry.assign_row cv org) IH => [k ks|].
  by apply: ins; rewrite in_cons ks orbT.
congr Returns; apply/matrixP => k j; rewrite !mxE in_cons.
by case: (k \in s); rewrite ?orbT ?orbF //; case: eqP => // ->.
Qed.

(** A read past the end of the list leaves the loop without a result. *)
Lemma foldl_assign_row_out cv org s A (i : 'I_mydim) :
  i \in s -> (size cv <= i.+1)%N ->
  foldl (AffineGeometry.assign_row cv org) (Returns A) s = Undefined.
Proof.
elim: s A => [//|k s IH] A; rewrite in_cons => /orP[/eqP <-|ins] out /=.
  rewrite /AffineGeometry.assign_row /= subscript_out //=.
  exact: foldl_assign_row_undefined.
rewrite /AffineGeometry.assign_row /= /AffineGeometry.subscript.
case: ifP => _ /=; first exact: IH.
exact: foldl_assign_row_undefined.
Qed.

(** The constructor in closed form: the object of the direct constructor
    on the origin and the edge vectors read from the list, whenever the
    list has the [mydim + 1] entries that are read. *)
Lemma Storage_coordVectorE u refEl cv ud :
  AffineGeometry.Storage_coordVector rightInvA u refEl cv ud
  = if (mydim < size cv)%N
    then Returns (AffineGeometry.Storage_jt rightInvA refEl (nth 0 cv 0)
                    (\matrix_(i < mydim) (nth 0 cv i.+1 - nth 0 cv 0)) ud)
    else Undefined :> Outcome (AffineGeometry.Storage ct mydim cdim GeometryType UserData).
Proof.
rewrite /AffineGeometry.Storage_coordVector.
case: ltnP => [lt_cv|le_cv].
  rewrite subscript_in ?(leq_ltn_trans (leq0n _) lt_cv) //=.
  rewrite foldl_assign_row_in /= => [i _|].
    by apply: leq_trans lt_cv; rewrite ltnS.
  set jt1 := (\matrix_(k, j) _); set jt2 := (\matrix_i _).
  suff -> : jt1 = jt2 by [].
  by apply/matrixP => k j; rewrite !mxE mem_enum.
case: (posnP (size cv)) => [cv0|cv_gt0].
  by rewrite subscript_out ?cv0.
rewrite subscript_in //=.
have lt_m : ((size cv).-1 < mydim)%N by rewrite prednK.
rewrite (@foldl_assign_row_out _ _ _ _ (Ordinal lt_m)) //.
  by rewrite mem_enum.
by rewrite /= prednK.
Qed.

End CornerListFacts.

(** ** Numerals and one-dimensional vectors *)
Section Numerals.
Variable ct : rcfType.

Lemma tolerance_gt0 : 0 < CheckGeometry.tolerance ct.
Proof. by rewrite /CheckGeometry.tolerance invr_gt0 exprn_gt0 // ltr0n. Qed.

Lemma tolerance_lt1 : CheckGeometry.tolerance ct < 1.
Proof.
rewrite /CheckGeometry.tolerance invf_lt1 ?exprn_gt0 ?ltr0n //.
by rewrite exprn_egt1 // ltr1n.
Qed.

Lemma two_norm_ge0 n (v : 'rV[ct]_n) : 0 <= FieldVector.two_norm v.
Proof. exact: sqrtr_ge0. Qed.

Lemma two_norm1 (v : 'rV[ct]_1) : FieldVector.two_norm v = `|v 0 0|.
Proof.
by rewrite /FieldVector.two_norm /FieldVector.two_norm2 big_ord1 sqrtr_sqr.
Qed.


End Numerals.


(** ** Properties of the affine geometry *)
Section AffineGeometryClaims.
Variable ct : rcfType.
Variables mydim cdim : nat.
Variable GeometryType : Type.
Variable UserData : Type.

Local Notation Geometry := (AffineGeometry.AffineGeometry ct mydim cdim GeometryType UserData).
Local Notation RefElement := (ReferenceElement.t ct mydim GeometryType).


(** On the default traits a Jacobian of full row rank gives a geometry on
    which the round trip is the identity. *)
Lemma local_global_full_rank (refEl : RefElement) (org : 'rV[ct]_cdim)
    (J : 'M[ct]_(mydim, cdim)) (ud : UserData) (x : 'rV[ct]_mydim) :
  row_free J ->
  let g := AffineGeometry.AffineGeometry_refElement_jt
             (@AffineGeometryTraits.rightInvA ct mydim cdim) refEl org J ud in
  AffineGeometry.local g (AffineGeometry.global g x) = x.
Proof.
by move=> Jfree /=; rewrite local_globalE /= pseudoInverse_right // mulmx1.
Qed.



(** C6.  [global(x)] is the origin plus the transposed of
    [jacobianTransposed] applied to [x], entry by entry
    [origin[j] + sum_i jacobianTransposed[i][j] * x[i]]; it is a function of
    every [x], with no restriction of its domain. *)
Theorem global_formula (g : Geometry) (x : 'rV[ct]_mydim) :
  AffineGeometry.global g x
  = AffineGeometry.st_origin g + ((AffineGeometry.st_jacobianTransposed g)^T *m x^T)^T
  /\ forall j, AffineGeometry.global g x 0 j
       = AffineGeometry.st_origin g 0 j
         + \sum_i AffineGeometry.st_jacobianTransposed g i j * x 0 i.
Proof.
split; first by rewrite globalE trmx_mul !trmxK.
by move=> j; rewrite /AffineGeometry.global mxE.
Qed.


(** C9.  After any sequence of writes to the user data through
    [userData()], the geometric state and every query are what they were;
    only [userData()] itself follows the writes. *)
Theorem userData_frame (g : Geometry) (writes : seq UserData)
    (x : 'rV[ct]_mydim) (y : 'rV[ct]_cdim) (i : int) :
  let g' := foldl (@AffineGeometry.userData_assign ct mydim cdim GeometryType UserData)
                  g writes in
  [/\ [/\ AffineGeometry.st_refElement g' = AffineGeometry.st_refElement g,
          AffineGeometry.st_origin g' = AffineGeometry.st_origin g,
          AffineGeometry.jacobianTransposed g' x = AffineGeometry.jacobianTransposed g x,
          AffineGeometry.jacobianInverseTransposed g' x
            = AffineGeometry.jacobianInverseTransposed g x
        & AffineGeometry.integrationElement g' x = AffineGeometry.integrationElement g x],
      [/\ AffineGeometry.type g' = AffineGeometry.type g,
          AffineGeometry.corners g' = AffineGeometry.corners g,
          AffineGeometry.corner g' i = AffineGeometry.corner g i
        & AffineGeometry.center g' = AffineGeometry.center g],
      [/\ AffineGeometry.global g' x = AffineGeometry.global g x,
          AffineGeometry.local g' y = AffineGeometry.local g y
        & AffineGeometry.volume g' = AffineGeometry.volume g]
    & AffineGeometry.userData g' = last (AffineGeometry.userData g) writes].
Proof.
elim: writes g => [|u writes IH] g //=.
by have [[? ? ? ? ?] [? ? ? ?] [? ? ?] ?] := IH (AffineGeometry.userData_assign g u).
Qed.

End AffineGeometryClaims.

(** ** Properties of the construction from corners *)
Section CornerListClaims.
Variable ct : rcfType.
Variables mydim cdim : nat.
Variable GeometryType : Type.
Variable UserData : Type.
Variable rightInvA : 'M[ct]_(mydim, cdim) -> 'M[ct]_(cdim, mydim) * ct.
Variable general : GeometryType -> ReferenceElement.t ct mydim GeometryType.

Local Notation RefElement := (ReferenceElement.t ct mydim GeometryType).
Local Notation from_corners := (AffineGeometry.AffineGeometry_refElement_coordVector rightInvA).

(** The constructors that take a geometry type look the reference element
    up and do the same. *)
Lemma AffineGeometry_gt_coordVectorE u gt cv (ud : UserData) :
  AffineGeometry.AffineGeometry_gt_coordVector rightInvA general u gt cv ud
  = from_corners u (general gt) cv ud.
Proof. by []. Qed.

Lemma AffineGeometry_gt_jtE gt org J (ud : UserData) :
  AffineGeometry.AffineGeometry_gt_jt rightInvA general gt org J ud
  = AffineGeometry.AffineGeometry_refElement_jt rightInvA (general gt) org J ud.
Proof. by []. Qed.

(** C5 (as amended).  The constructors from a corner list make no test on
    the length of the list and throw nothing.  With at least [mydim + 1]
    entries they return the geometry of the direct constructor on
    [coordVector[0]] and the rows [coordVector[i+1] - coordVector[0]], the
    entries past the first [mydim + 1] being ignored; with fewer entries
    they read past the end of the list, which has no defined behaviour.
    The constructor that takes a geometry type is the other one on the
    reference element of the catalogue. *)
Theorem corner_list_length_unchecked (u : 'M[ct]_(mydim, cdim)) (refEl : RefElement)
    (gt : GeometryType) (cv : seq 'rV[ct]_cdim) (ud : UserData) :
  [/\ forall e, from_corners u refEl cv ud <> Throws e,
      from_corners u refEl cv ud
      = (if (mydim < size cv)%N
         then Returns (AffineGeometry.AffineGeometry_refElement_jt rightInvA refEl
                         (nth 0 cv 0)
                         (\matrix_(i < mydim) (nth 0 cv i.+1 - nth 0 cv 0)) ud)
         else Undefined),
      from_corners u refEl (take mydim.+1 cv) ud
      = (if (mydim < size cv)%N then from_corners u refEl cv ud else Undefined)
    & AffineGeometry.AffineGeometry_gt_coordVector rightInvA general u gt cv ud
      = from_corners u (general gt) cv ud].
Proof.
have E := Storage_coordVectorE rightInvA u refEl _ ud.
rewrite /AffineGeometry.AffineGeometry_refElement_coordVector; split.
- by move=> e; rewrite E; case: ifP.
- exact: E.
- case: (ltnP mydim (size cv)) => [lt_cv|le_cv]; last first.
    by rewrite take_oversize ?E 1?ltnNge ?le_cv // ltnW.
  rewrite !E size_takel // ltnSn lt_cv.
  congr (Returns (AffineGeometry.Storage_jt _ _ _ _ _)); first by rewrite nth_take.
  by apply/row_matrixP => i; rewrite !rowK !nth_take ?ltnS.
- by [].
Qed.

(** C7.  From a corner list [c[0..mydim]] either constructor returns a
    geometry whose origin is [c[0]] and whose [jacobianTransposed] has the
    rows [c[i+1] - c[0]]; that geometry is the one the direct constructor
    builds from this origin and this Jacobian, so its pseudo-inverse and
    integration element are derived in the same way.  The indeterminate
    initial content of the matrix leaves no trace. *)
Theorem corner_list_construction (u : 'M[ct]_(mydim, cdim)) (refEl : RefElement)
    (gt : GeometryType) (cv : seq 'rV[ct]_cdim) (ud : UserData) :
  size cv = mydim.+1 ->
  (exists g,
     [/\ from_corners u refEl cv ud = Returns g,
         AffineGeometry.st_origin g = nth 0 cv 0,
         forall i : 'I_mydim,
           row i (AffineGeometry.st_jacobianTransposed g) = nth 0 cv i.+1 - nth 0 cv 0
       & g = AffineGeometry.AffineGeometry_refElement_jt rightInvA refEl
               (AffineGeometry.st_origin g) (AffineGeometry.st_jacobianTransposed g) ud])
  /\ AffineGeometry.AffineGeometry_gt_coordVector rightInvA general u gt cv ud
     = from_corners u (general gt) cv ud.
Proof.
move=> sz_cv; split; last by [].
rewrite /AffineGeometry.AffineGeometry_refElement_coordVector Storage_coordVectorE.
rewrite sz_cv ltnSn; eexists; split; first by [].
- by [].
- by move=> i; rewrite /= rowK.
- by [].
Qed.

End CornerListClaims.

(** ** The threaded state of the checker against its report *)
Section CheckerFacts.
Variable ct : rcfType.
Variables mydim coorddim : nat.
Variable GeometryType : Type.
Variable general : GeometryType -> ReferenceElement.t ct mydim GeometryType.
Variable create : GeometryType -> nat -> seq (CheckGeometry.QuadraturePoint ct mydim).
Variable epsilon : ct.

Local Notation TestGeometry := (CheckGeometry.TestGeometry ct mydim coorddim GeometryType).
Local Notation State := (CheckGeometry.State ct mydim).
Local Notation Diagnostic := (CheckGeometry.Diagnostic ct mydim).
Local Notation line := (@CheckGeometry.line ct mydim).

Implicit Types (g : TestGeometry) (st : State) (d : Diagnostic).

(** One guarded [report]: [pass] is and-ed with the test's success, the
    line is appended. *)
Lemma report_line (failed : bool) d st :
  (if failed then CheckGeometry.report d st else st)
  = (st.1 && nilp (line failed d), st.2 ++ line failed d).
Proof.
case: st => pass log; case: failed => /=; first by rewrite andbF cats1.
by rewrite andbT cats0.
Qed.

Lemma report_lines (pass : bool) (log l1 l2 : seq Diagnostic) :
  ((pass && nilp l1) && nilp l2, (log ++ l1) ++ l2)
  = (pass && nilp (l1 ++ l2), log ++ (l1 ++ l2)).
Proof. by rewrite cat_nilp andbA catA. Qed.

Lemma check_pointE g st q :
  CheckGeometry.check_point epsilon g (general (CheckGeometry.type g)) st q
  = (st.1 && nilp (CheckGeometry.point_report general epsilon g (CheckGeometry.position q)),
     st.2 ++ CheckGeometry.point_report general epsilon g (CheckGeometry.position q)).
Proof.
case: st => pass log.
rewrite /CheckGeometry.check_point /CheckGeometry.point_report.
rewrite /CheckGeometry.line /CheckGeometry.report.
by do 5![case: ifP => _ /=]; rewrite ?andbF ?andbT ?cats0 -?cats1 -?catA.
Qed.

Lemma foldl_check_point g st qs :
  foldl (CheckGeometry.check_point epsilon g (general (CheckGeometry.type g))) st qs
  = (st.1 && nilp (flatten [seq CheckGeometry.point_report general epsilon g
                                  (CheckGeometry.position q) | q <- qs]),
     st.2 ++ flatten [seq CheckGeometry.point_report general epsilon g
                            (CheckGeometry.position q) | q <- qs]).
Proof.
elim: qs st => [|q qs IH] st /=; first by rewrite andbT cats0; case: st.
by rewrite IH check_pointE /= report_lines.
Qed.

Lemma foldl_check_corner g st (ids : seq int) :
  foldl (CheckGeometry.check_corner g (general (CheckGeometry.type g))) st ids
  = (st.1 && nilp (flatten [seq line (CheckGeometry.corner_inconsistent g
                                        (general (CheckGeometry.type g)) i)
                                     CheckGeometry.CornerGlobalInconsistent
                           | i <- ids]),
     st.2 ++ flatten [seq line (CheckGeometry.corner_inconsistent g
                                  (general (CheckGeometry.type g)) i)
                               CheckGeometry.CornerGlobalInconsistent
                     | i <- ids]).
Proof.
elim: ids st => [|i ids IH] st /=; first by rewrite andbT cats0; case: st.
by rewrite IH /CheckGeometry.check_corner report_line /= report_lines.
Qed.

Lemma check_cornersE g st :
  CheckGeometry.check_corners general g st
  = (st.1 && nilp (CheckGeometry.corner_report general g),
     st.2 ++ CheckGeometry.corner_report general g).
Proof.
rewrite /CheckGeometry.check_corners /CheckGeometry.corner_report.
case: ifP => _; first exact: foldl_check_corner.
by rewrite /CheckGeometry.report /= andbF cats1.
Qed.

(** No line about a corner comes from the tests at a quadrature point. *)
Lemma point_report_no_corner_line g x :
  has (@CheckGeometry.is_CornerGlobalInconsistent ct mydim)
      (CheckGeometry.point_report general epsilon g x) = false.
Proof.
rewrite /CheckGeometry.point_report !has_cat /CheckGeometry.line.
by do 5![case: ifP => _ /=].
Qed.

Lemma points_report_no_corner_line g (qs : seq (CheckGeometry.QuadraturePoint ct mydim)) :
  has (@CheckGeometry.is_CornerGlobalInconsistent ct mydim)
      (flatten [seq CheckGeometry.point_report general epsilon g
                      (CheckGeometry.position q) | q <- qs]) = false.
Proof.
by elim: qs => [//|q qs IH] /=; rewrite has_cat IH point_report_no_corner_line.
Qed.

(** The outcome of [checkGeometry] in closed form. *)
Lemma checkGeometryE g :
  CheckGeometry.checkGeometry general create epsilon g
  = if CheckGeometry.center_inconsistent general g
    then Throws (DuneException
           "center() is not consistent with global(refElem.position(0,0)).")
    else Returns (nilp (CheckGeometry.full_report general create epsilon g),
                  CheckGeometry.full_report general create epsilon g).
Proof.
rewrite /CheckGeometry.checkGeometry; case: ifP => // _.
by rewrite foldl_check_point check_cornersE /= /CheckGeometry.full_report cat_nilp.
Qed.

End CheckerFacts.

(** ** Properties of the checker *)
Section CheckerClaims.
Variable ct : rcfType.
Variables mydim coorddim : nat.
Variable GeometryType : Type.
Variable general : GeometryType -> ReferenceElement.t ct mydim GeometryType.
Variable create : GeometryType -> nat -> seq (CheckGeometry.QuadraturePoint ct mydim).
Variable epsilon : ct.

Local Notation TestGeometry := (CheckGeometry.TestGeometry ct mydim coorddim GeometryType).
Local Notation checkGeometry := (CheckGeometry.checkGeometry general create epsilon).
Local Notation full_report := (CheckGeometry.full_report general create epsilon).



(** C10 (as amended).  For a geometry that passes the test on [center()]
    and whose [corners()] differs from the corner count of the reference
    element, [checkGeometry] returns false; its first line is the one on the
    number of corners, no line on the placement of a corner follows, and
    the outcome is the same whatever [corner] returns: no corner is
    compared. *)
Theorem corner_count_mismatch (g : TestGeometry) :
  ~~ CheckGeometry.center_inconsistent general g ->
  ReferenceElement.size (general (CheckGeometry.type g)) (Posz mydim)
    != CheckGeometry.corners g ->
  exists log,
    [/\ checkGeometry g
        = Returns (false,
                   CheckGeometry.IncorrectNumberOfCorners (CheckGeometry.corners g)
                     (ReferenceElement.size (general (CheckGeometry.type g)) (Posz mydim))
                   :: log),
        has (@CheckGeometry.is_CornerGlobalInconsistent ct mydim) log = false
      & forall c, checkGeometry (with_corner g c) = checkGeometry g].
Proof.
move=> /negbTE center_ok /negbTE mismatch.
exists (flatten [seq CheckGeometry.point_report general epsilon g
                       (CheckGeometry.position q)
                | q <- create (CheckGeometry.type g) 2]); split.
- rewrite checkGeometryE center_ok.
  by rewrite /CheckGeometry.full_report /CheckGeometry.corner_report mismatch.
- exact: points_report_no_corner_line.
- move=> c; rewrite !checkGeometryE.
  have -> : CheckGeometry.center_inconsistent general (with_corner g c)
            = CheckGeometry.center_inconsistent general g by [].
  rewrite center_ok /CheckGeometry.full_report /CheckGeometry.corner_report /=.
  by rewrite mismatch.
Qed.

End CheckerClaims.

(** ** The concrete inputs evaluated *)
Section ScenarioFacts.

Local Notation traits11 := (@AffineGeometryTraits.rightInvA algR 1 1).
Local Notation check := (CheckGeometry.checkGeometry Scenario.general Scenario.create
                           Scenario.epsilon).





Lemma stretched_corners : AffineGeometry.corners Scenario.stretched = 2.
Proof. by []. Qed.

(** [stretched] maps the barycentre [1/2] to [1]. *)
Lemma stretched_barycentre :
  AffineGeometry.global Scenario.stretched
    (ReferenceElement.position Scenario.unitInterval 0 0) = const_mx 1.
Proof.
rewrite globalE /= add0r mul_mx_scalar; apply/rowP => j.
by rewrite !mxE mulfV // pnatr_eq0.
Qed.

Lemma off_center_inconsistent :
  CheckGeometry.center_inconsistent Scenario.general Scenario.off_center.
Proof.
rewrite /CheckGeometry.center_inconsistent /= stretched_barycentre.
by rewrite two_norm1 !mxE sub0r normrN !normr1 tolerance_lt1.
Qed.

Lemma three_cornered_center_consistent :
  ~~ CheckGeometry.center_inconsistent Scenario.general Scenario.three_cornered.
Proof.
rewrite /CheckGeometry.center_inconsistent /= /AffineGeometry.center.
by rewrite subrr two_norm0 normr0 -leNgt ltW // tolerance_gt0.
Qed.

End ScenarioFacts.

(** ** The checker on an affine geometry *)
Section CheckerOnAffineGeometry.
Variable ct : rcfType.
Variables mydim cdim : nat.
Variable GeometryType : Type.
Variable UserData : Type.
Variable general : GeometryType -> ReferenceElement.t ct mydim GeometryType.
Variable create : GeometryType -> nat -> seq (CheckGeometry.QuadraturePoint ct mydim).
Variable epsilon : ct.

Local Notation Geometry := (AffineGeometry.AffineGeometry ct mydim cdim GeometryType UserData).






End CheckerOnAffineGeometry.

(** For a square Jacobian of full rank the product is the identity in both
    orders. *)
Lemma jacobian_duality_square (ct : rcfType) (n : nat) (GeometryType UserData : Type)
    (refEl : ReferenceElement.t ct n GeometryType) (org : 'rV[ct]_n)
    (J : 'M[ct]_n) (ud : UserData) (x : 'rV[ct]_n) :
  row_free J ->
  let g := AffineGeometry.AffineGeometry_refElement_jt
             (@AffineGeometryTraits.rightInvA ct n n) refEl org J ud in
  AffineGeometry.jacobianInverseTransposed g x *m AffineGeometry.jacobianTransposed g x
  = 1%:M.
Proof.
move=> Jfree /=; rewrite /AffineGeometry.jacobianInverseTransposed /=.
rewrite /AffineGeometry.jacobianTransposed /= pseudoInverse_square //.
by rewrite mulVmx // -row_free_unit.
Qed.

(** The integration element and the volume of [stretched]; its second
    corner. *)
Lemma stretched_integrationElement (x : 'rV[algR]_1) :
  AffineGeometry.integrationElement Scenario.stretched x = 2%:R.
Proof.
rewrite /AffineGeometry.integrationElement /= /MatrixHelper.pseudoDeterminant.
rewrite tr_scalar_mx -scalar_mxM det_scalar1 -expr2 sqrtr_sqr.
by rewrite ger0_norm // ler0n.
Qed.

Lemma stretched_volume : AffineGeometry.volume Scenario.stretched = 2%:R.
Proof.
by rewrite /AffineGeometry.volume -/(AffineGeometry.integrationElement _ 0)
           stretched_integrationElement /= mulr1.
Qed.

Lemma stretched_corner_1 :
  AffineGeometry.corner Scenario.stretched 1 = Returns (const_mx 2%:R).
Proof.
rewrite /AffineGeometry.corner globalE /= add0r mul_mx_scalar; congr Returns.
by apply/rowP => j; rewrite !mxE mulr1.
Qed.

(** ** The scenarios of the specification evaluated *)
Section TriangleFacts.

Local Notation traits22 := (@AffineGeometryTraits.rightInvA algR 2 2).
Local Notation traits23 := (@AffineGeometryTraits.rightInvA algR 2 3).

(** Scenario A: [integrationElement = 1], [volume = 0.5],
    [corner(0) = (0,0)]. *)
Lemma scenarioA_values (x : 'rV[algR]_2) :
  [/\ AffineGeometry.integrationElement Triangle.scenarioA x = 1,
      AffineGeometry.volume Triangle.scenarioA = 2^-1
    & AffineGeometry.corner Triangle.scenarioA 0 = Returns (Triangle.vec2 0 0)].
Proof.
have ie1 : AffineGeometry.st_integrationElement Triangle.scenarioA = 1.
  by rewrite /= /MatrixHelper.pseudoDeterminant trmx1 mulmx1 det1 sqrtr1.
split; first exact: ie1.
  by rewrite /AffineGeometry.volume ie1 mul1r.
by rewrite /AffineGeometry.corner globalE /= add0r mulmx1.
Qed.

End TriangleFacts.

Section TriangleScenarios.

Local Notation traits22 := (@AffineGeometryTraits.rightInvA algR 2 2).
Local Notation traits23 := (@AffineGeometryTraits.rightInvA algR 2 3).

Lemma cornersB_edges :
  \matrix_(i < 2) (nth 0 Triangle.cornersB i.+1 - nth 0 Triangle.cornersB 0)
  = (2%:R)%:M :> 'M[algR]_2.
Proof.
apply/matrixP => i j; rewrite !mxE.
case: i => [[|[|i]] lt_i] //=; case: j => [[|[|j]] lt_j] //=;
  by rewrite !mxE -?val_eqE /= ?subr0 ?mulr1n ?mulr0n.
Qed.

(** Scenario B: [integrationElement = 4], [volume = 2.0]. *)
Lemma scenarioB_values :
  exists g,
    [/\ AffineGeometry.AffineGeometry_refElement_coordVector traits22 0
          Triangle.unitTriangle Triangle.cornersB tt = Returns g,
        forall x, AffineGeometry.integrationElement g x = 4
      & AffineGeometry.volume g = 2].
Proof.
rewrite /AffineGeometry.AffineGeometry_refElement_coordVector Storage_coordVectorE.
rewrite cornersB_edges /=; eexists; split; first by [].
  move=> x; rewrite /AffineGeometry.integrationElement /=.
  rewrite /MatrixHelper.pseudoDeterminant tr_scalar_mx -scalar_mxM det_scalar.
  by rewrite sqrtr_sqr ger0_norm ?mulr_ge0 ?ler0n // -natrM.
rewrite /AffineGeometry.volume /= /MatrixHelper.pseudoDeterminant.
rewrite tr_scalar_mx -scalar_mxM det_scalar sqrtr_sqr ger0_norm ?mulr_ge0 ?ler0n //.
by field.
Qed.

Lemma cornersC_edges_det :
  \det (\matrix_(i < 2) (nth 0 Triangle.cornersC i.+1 - nth 0 Triangle.cornersC 0)
         : 'M[algR]_2) = 0.
Proof.
set J := (\matrix_i _).
have trigJ : is_trig_mx J.
  apply/is_trig_mxP => i j.
  case: i => [[|[|i]] lt_i] //=; case: j => [[|[|j]] lt_j] //= _;
    by rewrite !mxE /= subr0.
rewrite (det_trig trigJ) big_ord_recr /= [J ord_max ord_max]mxE /= !mxE /=.
by rewrite subr0 mulr0.
Qed.

(** Scenario C: collinear corners are accepted, with
    [integrationElement = 0] and [volume = 0]. *)
Lemma scenarioC_values :
  exists g,
    [/\ AffineGeometry.AffineGeometry_refElement_coordVector traits22 0
          Triangle.unitTriangle Triangle.cornersC tt = Returns g,
        forall x, AffineGeometry.integrationElement g x = 0
      & AffineGeometry.volume g = 0].
Proof.
rewrite /AffineGeometry.AffineGeometry_refElement_coordVector Storage_coordVectorE.
have ie0 : MatrixHelper.pseudoDeterminant
             (\matrix_(i < 2) (nth 0 Triangle.cornersC i.+1 - nth 0 Triangle.cornersC 0)
              : 'M[algR]_2) = 0.
  by rewrite /MatrixHelper.pseudoDeterminant det_mulmx cornersC_edges_det mul0r sqrtr0.
rewrite [(2 < _)%N]/=; eexists; split; first by [].
  by move=> x; rewrite /AffineGeometry.integrationElement /= ie0.
by rewrite /AffineGeometry.volume /= ie0 mul0r.
Qed.

Lemma cornersD_edges :
  \matrix_(i < 2) (nth 0 Triangle.cornersD i.+1 - nth 0 Triangle.cornersD 0)
  = pid_mx 2 :> 'M[algR]_(2, 3).
Proof.
apply/matrixP => i j; rewrite !mxE.
case: i => [[|[|i]] lt_i] //=; case: j => [[|[|[|j]]] lt_j] //=;
  by rewrite !mxE /= subr0.
Qed.

(** Scenario D: a triangle in space, [integrationElement = 1]. *)
Lemma scenarioD_values :
  exists g,
    AffineGeometry.AffineGeometry_refElement_coordVector traits23 0
      Triangle.unitTriangle Triangle.cornersD tt = Returns g
    /\ forall x, AffineGeometry.integrationElement g x = 1.
Proof.
rewrite /AffineGeometry.AffineGeometry_refElement_coordVector Storage_coordVectorE.
rewrite cornersD_edges /=; eexists; split; first by [].
move=> x; rewrite /AffineGeometry.integrationElement /=.
rewrite /MatrixHelper.pseudoDeterminant tr_pid_mx mul_pid_mx /= pid_mx_1.
by rewrite det1 sqrtr1.
Qed.

End TriangleScenarios.

(** ** Instances and counterexamples *)







(** C5 as stated fails on [three_corners]: three entries where
    [mydim + 1 = 2] are asked for, and the constructor returns. *)
Lemma three_corners_accepted :
  size Scenario.three_corners != 1.+1
  /\ AffineGeometry.AffineGeometry_refElement_coordVector
       (@AffineGeometryTraits.rightInvA algR 1 1) 0 Scenario.unitInterval
       Scenario.three_corners tt
     <> Throws InvalidArgument.
Proof.
split=> //; rewrite /AffineGeometry.AffineGeometry_refElement_coordVector.
by rewrite Storage_coordVectorE.
Qed.

(** The construction from the two corners [0] and [2]. *)
Lemma corner_list_construction_two_corners :
  size Scenario.two_corners = 1.+1
  /\ ((exists g,
         [/\ AffineGeometry.AffineGeometry_refElement_coordVector
               (@AffineGeometryTraits.rightInvA algR 1 1) 0 Scenario.unitInterval
               Scenario.two_corners tt = Returns g,
             AffineGeometry.st_origin g = nth 0 Scenario.two_corners 0,
             forall i : 'I_1,
               row i (AffineGeometry.st_jacobianTransposed g)
               = nth 0 Scenario.two_corners i.+1 - nth 0 Scenario.two_corners 0
           & g = AffineGeometry.AffineGeometry_refElement_jt
                   (@AffineGeometryTraits.rightInvA algR 1 1) Scenario.unitInterval
                   (AffineGeometry.st_origin g)
                   (AffineGeometry.st_jacobianTransposed g) tt])
      /\ AffineGeometry.AffineGeometry_gt_coordVector
           (@AffineGeometryTraits.rightInvA algR 1 1) Scenario.general 0 tt
           Scenario.two_corners tt
         = AffineGeometry.AffineGeometry_refElement_coordVector
             (@AffineGeometryTraits.rightInvA algR 1 1) 0 (Scenario.general tt)
             Scenario.two_corners tt).
Proof.
split; first by [].
exact: (@corner_list_construction algR 1 1 unit unit
          (@AffineGeometryTraits.rightInvA algR 1 1) Scenario.general 0
          Scenario.unitInterval tt Scenario.two_corners tt (erefl _)).
Defined.

(** The mismatch of the corner counts on [three_cornered]. *)
Lemma corner_count_mismatch_three_cornered :
  exists log,
    [/\ CheckGeometry.checkGeometry Scenario.general Scenario.create Scenario.epsilon
          Scenario.three_cornered
        = Returns (false,
                   CheckGeometry.IncorrectNumberOfCorners
                     (CheckGeometry.corners Scenario.three_cornered)
                     (ReferenceElement.size
                        (Scenario.general (CheckGeometry.type Scenario.three_cornered))
                        (Posz 1))
                   :: log),
        has (@CheckGeometry.is_CornerGlobalInconsistent algR 1) log = false
      & forall c,
          CheckGeometry.checkGeometry Scenario.general Scenario.create Scenario.epsilon
            (with_corner Scenario.three_cornered c)
          = CheckGeometry.checkGeometry Scenario.general Scenario.create Scenario.epsilon
              Scenario.three_cornered].
Proof.
exact: (@corner_count_mismatch algR 1 1 unit Scenario.general Scenario.create
          Scenario.epsilon Scenario.three_cornered
          three_cornered_center_consistent isT).
Defined.

(** C10 as stated fails on [off_center_three_corners]: the corner counts
    differ, yet [checkGeometry] returns nothing, the test on [center()]
    having thrown before the corners are looked at. *)
Lemma off_center_three_corners_throws :
  ReferenceElement.size
    (Scenario.general (CheckGeometry.type Scenario.off_center_three_corners)) (Posz 1)
    != CheckGeometry.corners Scenario.off_center_three_corners
  /\ CheckGeometry.checkGeometry Scenario.general Scenario.create Scenario.epsilon
       Scenario.off_center_three_corners
     = Throws (DuneException
         "center() is not consistent with global(refElem.position(0,0)).").
Proof.
split=> //; rewrite checkGeometryE.
have -> // : CheckGeometry.center_inconsistent Scenario.general
               Scenario.off_center_three_corners.
exact: off_center_inconsistent.
Qed.

(** * Further properties of the code *)

(** ** Further properties of the affine mapping *)
Section AffineMapFacts.
Variable ct : rcfType.
Variables mydim cdim : nat.
Variable GeometryType : Type.
Variable UserData : Type.

Local Notation Geometry := (AffineGeometry.AffineGeometry ct mydim cdim GeometryType UserData).
Local Notation jt := AffineGeometry.st_jacobianTransposed.
Local Notation jit := AffineGeometry.st_jacobianInverseTransposed.
Local Notation origin := AffineGeometry.st_origin.

Implicit Types (g : Geometry) (x : 'rV[ct]_mydim) (y : 'rV[ct]_cdim).



End AffineMapFacts.

(** ** The inverse mapping as a least-squares solution *)
Section LeastSquares.
Variable ct : rcfType.
Variables mydim cdim : nat.
Variable GeometryType : Type.
Variable UserData : Type.

Local Notation Geometry := (AffineGeometry.AffineGeometry ct mydim cdim GeometryType UserData).
Local Notation jt := AffineGeometry.st_jacobianTransposed.
Local Notation jit := AffineGeometry.st_jacobianInverseTransposed.
Local Notation origin := AffineGeometry.st_origin.

Implicit Types (g : Geometry) (x : 'rV[ct]_mydim) (y : 'rV[ct]_cdim).




End LeastSquares.

(** ** Further properties of the construction from corners *)
Section CornerListMore.
Variable ct : rcfType.
Variables mydim cdim : nat.
Variable GeometryType : Type.
Variable UserData : Type.
Variable rightInvA : 'M[ct]_(mydim, cdim) -> 'M[ct]_(cdim, mydim) * ct.

Local Notation RefElement := (ReferenceElement.t ct mydim GeometryType).
Local Notation from_corners := (AffineGeometry.AffineGeometry_refElement_coordVector rightInvA).


End CornerListMore.

(** ** What a pass of the checker means *)
Section CheckerVerdict.
Variable ct : rcfType.
Variables mydim coorddim : nat.
Variable GeometryType : Type.
Variable general : GeometryType -> ReferenceElement.t ct mydim GeometryType.
Variable create : GeometryType -> nat -> seq (CheckGeometry.QuadraturePoint ct mydim).
Variable epsilon : ct.

Local Notation TestGeometry := (CheckGeometry.TestGeometry ct mydim coorddim GeometryType).
Local Notation checkGeometry := (CheckGeometry.checkGeometry general create epsilon).
Local Notation refElement_of g := (general (CheckGeometry.type g)).

(** The five tests at a point all succeed. *)
Local Notation point_ok g x :=
  [&& ~~ CheckGeometry.not_inverse epsilon g x,
      CheckGeometry.isId (CheckGeometry.product g x),
      ~~ CheckGeometry.negative_integrationElement g x,
      ~~ CheckGeometry.integrationElement_inconsistent g x
    & ~~ CheckGeometry.volume_inconsistent g (refElement_of g) x].









End CheckerVerdict.

(** ** A matrix close to the identity is invertible *)
Section NearIdentity.
Variable ct : rcfType.


End NearIdentity.

(** ** The checker applied to affine geometries *)
Section CheckerOnAnyAffineGeometry.
Variable ct : rcfType.
Variables mydim cdim : nat.
Variable GeometryType : Type.
Variable UserData : Type.
Variable general : GeometryType -> ReferenceElement.t ct mydim GeometryType.
Variable create : GeometryType -> nat -> seq (CheckGeometry.QuadraturePoint ct mydim).
Variable epsilon : ct.

Local Notation Geometry := (AffineGeometry.AffineGeometry ct mydim cdim GeometryType UserData).
Local Notation TestGeometry := (CheckGeometry.TestGeometry ct mydim cdim GeometryType).
Local Notation checkGeometry := (CheckGeometry.checkGeometry general create epsilon).
Local Notation jt := AffineGeometry.st_jacobianTransposed.
Local Notation jit := AffineGeometry.st_jacobianInverseTransposed.


End CheckerOnAnyAffineGeometry.

(** ** Instances of the further properties *)





